(** * Metropolis_Hastings.ipynb: the [metropolis] sampler

    A shallow embedding of the notebook's only routine,

<<
    def metropolis(func, steps=10000):
        samples = np.zeros(steps)
        old_x = func.mean()
        old_prob = func.pdf(old_x)

        for i in range(steps):
            new_x = old_x + np.random.normal(0, 0.5)
            new_prob = func.pdf(new_x)
            acceptance = new_prob / old_prob
            if acceptance >= np.random.random():
                samples[i] = new_x
                old_x = new_x
                old_prob = new_prob
            else:
                samples[i] = old_x
        return samples
>>

    The notebook calls it on [scipy.stats] frozen distributions, whose
    [mean()] and [pdf(x)] return NumPy [float64] scalars, so every scalar
    of the loop is a [float64].  They are modelled by Rocq's primitive
    binary64 floats: [+] and [/] are the IEEE operations (a division by
    zero yields an infinity or a NaN, it does not raise), and
    [acceptance >= u] is the IEEE comparison [u <=? acceptance], false as
    soon as one side is a NaN.  The array [samples] is a list updated by
    index, and the module-level generator [np.random] is a state threaded
    through the two calls of every iteration. *)

From Stdlib Require Import ZArith Floats.
From stdpp Require Import base list.

#[local] Set Warnings "-inexact-float".

(** ** The collaborators: target distribution and random source *)

(** [func]: a frozen distribution, of which the sampler uses [mean()] and
    [pdf(x)] only. *)
Record distribution := Distribution {
  mean : float;
  pdf : float -> float
}.

(** [np.random]: a generator state [G] with the two draws the sampler
    makes.  [normal loc scale] is [np.random.normal(loc, scale)] and
    [random] is [np.random.random()]; each returns the value drawn and the
    state left behind. *)
Class RandomSource (G : Type) := {
  normal : float -> float -> G -> float * G;
  random : G -> float * G
}.

(** What [np.zeros] raises on a negative length. *)
Inductive exception := ValueError.

(** [np.zeros(n)]: [n] zeros, or [ValueError] ("negative dimensions are
    not allowed"). *)
Definition np_zeros (n : Z) : exception + list float :=
  if (n <? 0)%Z then inl ValueError
  else inr (replicate (Z.to_nat n) 0%float).

(** ** The sampler *)

Section Sampler.
Context {G : Type} `{RandomSource G}.

(** The variables alive across iterations of the loop. *)
Record chain := Chain {
  samples : list float;
  old_x : float;
  old_prob : float;
  gen : G
}.

(** One pass through the body of [for i in range(steps)]. *)
Definition body (func : distribution) (st : chain) (i : nat) : chain :=
  let '(offset, g1) := normal 0 0.5 (gen st) in
  let new_x := (old_x st + offset)%float in
  let new_prob := pdf func new_x in
  let acceptance := (new_prob / old_prob st)%float in
  let '(u, g2) := random g1 in
  if (u <=? acceptance)%float
  then Chain (<[i := new_x]> (samples st)) new_x new_prob g2
  else Chain (<[i := old_x st]> (samples st)) (old_x st) (old_prob st) g2.

(** The state on entry to the loop. *)
Definition start (func : distribution) (zeros : list float) (g : G) : chain :=
  let x := mean func in
  Chain zeros x (pdf func x) g.

(** [metropolis(func, steps)] run from generator state [g]: the array
    returned (or the exception raised) and the generator state left. *)
Definition metropolis (func : distribution) (steps : Z) (g : G)
  : (exception + list float) * G :=
  match np_zeros steps with
  | inl e => (inl e, g)
  | inr zeros =>
      let st := fold_left (body func) (seq 0 (Z.to_nat steps))
                          (start func zeros g) in
      (inr (samples st), gen st)
  end.

(** *** Names for the quantities of one iteration *)

Definition offset (st : chain) : float := (normal 0 0.5 (gen st)).1.
Definition candidate_position (st : chain) : float :=
  (old_x st + offset st)%float.
Definition candidate_density (func : distribution) (st : chain) : float :=
  pdf func (candidate_position st).
Definition acceptance_ratio (func : distribution) (st : chain) : float :=
  (candidate_density func st / old_prob st)%float.
Definition uniform_draw (st : chain) : float :=
  (random (normal 0 0.5 (gen st)).2).1.
Definition gen_after (st : chain) : G :=
  (random (normal 0 0.5 (gen st)).2).2.

(** The loop state after the first [k] iterations of a run of [steps]. *)
Definition chain_at (func : distribution) (steps : Z) (g : G) (k : nat)
  : chain :=
  fold_left (body func) (seq 0 k)
            (start func (replicate (Z.to_nat steps) 0%float) g).

End Sampler.

Arguments chain : clear implicits.

(** ** Observing and scripting the random source *)

(** A call made to [np.random], with its arguments. *)
Inductive draw :=
  | DrawNormal (loc scale : float)
  | DrawUniform.

(** Any random source, with a journal of the calls made to it (the latest
    call last).  The values drawn are those of the underlying source. *)
#[export] Instance journaled (G : Type) `{RandomSource G}
  : RandomSource (G * list draw) := {
  normal loc scale s :=
    let '(x, g) := normal loc scale s.1 in
    (x, (g, s.2 ++ [DrawNormal loc scale]));
  random s :=
    let '(u, g) := random s.1 in
    (u, (g, s.2 ++ [DrawUniform]))
}.

(** The journal entries one iteration is expected to add. *)
Definition iteration_draws : list draw := [DrawNormal 0 0.5; DrawUniform].

(** The journal entries [n] iterations are expected to add. *)
Definition run_draws (n : nat) : list draw :=
  concat (replicate n iteration_draws).

(** A generator that replays a script of raw variates: [random] returns
    the next one, [normal loc scale] returns [loc + scale * z] for the next
    one [z], as NumPy's legacy generator does with its standard normal
    variate.  An exhausted script yields zeros. *)
Definition script := list float.

Definition next (s : script) : float * script :=
  match s with
  | [] => (0%float, [])
  | z :: s' => (z, s')
  end.

#[export] Instance scripted : RandomSource script := {
  normal loc scale s := let '(z, s') := next s in ((loc + scale * z)%float, s');
  random s := next s
}.

(** What a generator delivers to a run of [n] steps, from state [g] on:
    the value of [np.random.normal(0, 0.5)] and then the value of
    [np.random.random()], [n] times over. *)
Fixpoint draws {G : Type} `{RandomSource G} (n : nat) (g : G)
  : list (float * float) :=
  match n with
  | 0 => []
  | S n' =>
      let '(z, g1) := normal 0 0.5 g in
      let '(u, g2) := random g1 in
      (z, u) :: draws n' g2
  end.

(** ** Target distributions used in the examples *)

(** The binary64 values [scipy.stats.norm.pdf] returns at [0] and [0.3]. *)
Definition phi_0 : float := 0.3989422804014327%float.
Definition phi_03 : float := 0.38138781546052414%float.

(** A stand-in for [stats.norm()] that knows the density at the two points
    the one-step scenario visits. *)
Definition norm_at_0_and_03 : distribution := {|
  mean := 0%float;
  pdf x := if (x =? 0)%float then phi_0
           else if (x =? 0.3)%float then phi_03 else 0%float
|}.

(** [stats.uniform()]: density one on [[0, 1]], zero at every other
    number, and a NaN at a NaN. *)
Definition uniform_01 : distribution := {|
  mean := 0.5%float;
  pdf x := if ((0 <=? x) && (x <=? 1))%float then 1%float
           else if (x =? x)%float then 0%float else nan
|}.

(** A two-humped histogram density ([stats.rv_histogram] of the counts
    [1, 0, 1] on the edges [-1.5, -0.5, 0.5, 1.5]): the mean [0] lies in
    the gap, where the density is zero. *)
Definition two_humps : distribution := {|
  mean := 0%float;
  pdf x := if ((-1.5 <=? x) && (x <? -0.5))%float then 0.5%float
           else if ((0.5 <=? x) && (x <? 1.5))%float then 0.5%float
           else 0%float
|}.

(** [stats.cauchy()]: the mean does not exist and [mean()] returns a NaN;
    the density is [1 / pi / (1 + x * x)]. *)
Definition cauchy : distribution := {|
  mean := nan;
  pdf x := (1 / 3.141592653589793 / (1 + x * x))%float
|}.

(** A density with a pole, after [stats.beta(0.5, 1)]: [0.5 / sqrt x] on
    [[0, 1]], which is [+infinity] at [0], and zero elsewhere; the mean is
    one third. *)
Definition beta_half_1 : distribution := {|
  mean := 0.3333333333333333%float;
  pdf x := if ((0 <=? x) && (x <=? 1))%float then (0.5 / sqrt x)%float
           else 0%float
|}.

(** * Properties *)

(** ** Facts of binary64 arithmetic the sampler relies on *)

Section FloatFacts.
Local Open Scope float_scope.

Lemma SFcompare_swap (x y : spec_float) :
  SFcompare y x = option_map CompOpp (SFcompare x y).
Proof.
  destruct x as [sx|sx| |sx mx ex], y as [sy|sy| |sy my ey]; simpl;
    try reflexivity;
    try (destruct sx; reflexivity);
    try (destruct sy; reflexivity);
    try (destruct sx, sy; reflexivity).
  destruct sx, sy; simpl; try reflexivity;
    rewrite (Z.compare_antisym ex ey);
    destruct (ex ?= ey)%Z; simpl; try reflexivity;
    rewrite (Pos.compare_cont_antisym mx my Eq); reflexivity.
Qed.

(** [x < y] excludes [x >= y]. *)
Lemma ltb_not_geb (x y : float) : (x <? y) = true -> (y <=? x) = false.
Proof.
  rewrite ltb_spec, leb_spec. unfold SFltb, SFleb.
  rewrite (SFcompare_swap (Prim2SF x) (Prim2SF y)).
  destruct (SFcompare (Prim2SF x) (Prim2SF y)) as [[]|]; simpl; congruence.
Qed.

(** A NaN compares with nothing. *)
Lemma leb_nan_r (u : float) : (u <=? nan) = false.
Proof.
  rewrite leb_spec. unfold SFleb.
  change (Prim2SF nan) with S754_nan.
  destruct (Prim2SF u); reflexivity.
Qed.

(** [+0 / d = +0] for every positive [d], finite or not. *)
Lemma div_zero_pos (d : float) : (0 <? d) = true -> 0 / d = 0.
Proof.
  rewrite ltb_spec. intros Hd. apply Prim2SF_inj.
  rewrite div_spec. change (Prim2SF 0) with (S754_zero false) in *.
  unfold SFltb in Hd.
  destruct (Prim2SF d) as [s|s| |s m e]; simpl in Hd; try discriminate;
    destruct s; try discriminate; reflexivity.
Qed.

(** [p / +0 = +infinity] for every positive [p]. *)
Lemma div_pos_zero (p : float) : (0 <? p) = true -> p / 0 = infinity.
Proof.
  rewrite ltb_spec. intros Hp. apply Prim2SF_inj.
  rewrite div_spec. change (Prim2SF 0) with (S754_zero false) in *.
  change (Prim2SF infinity) with (S754_infinity false).
  unfold SFltb in Hp.
  destruct (Prim2SF p) as [s|s| |s m e]; simpl in Hp; try discriminate;
    destruct s; try discriminate; reflexivity.
Qed.

(** Everything that compares with zero is below [+infinity]. *)
Lemma leb_infinity (u : float) : (0 <=? u) = true -> (u <=? infinity) = true.
Proof.
  rewrite !leb_spec. unfold SFleb.
  change (Prim2SF 0) with (S754_zero false).
  change (Prim2SF infinity) with (S754_infinity false).
  destruct (Prim2SF u) as [s|s| |s m e]; simpl; try discriminate;
    try reflexivity; destruct s; try discriminate; reflexivity.
Qed.

End FloatFacts.

(** ** The loop *)

Section Loop.
Context {G : Type} `{RandomSource G}.
Implicit Types (func : distribution) (st : chain G) (g : G).

(** The body, in terms of the quantities of the iteration. *)
Lemma body_cases func st i :
  body func st i =
    if (uniform_draw st <=? acceptance_ratio func st)%float
    then Chain (<[i := candidate_position st]> (samples st))
               (candidate_position st) (candidate_density func st)
               (gen_after st)
    else Chain (<[i := old_x st]> (samples st))
               (old_x st) (old_prob st) (gen_after st).
Proof.
  unfold body, uniform_draw, acceptance_ratio, candidate_density,
    candidate_position, offset, gen_after.
  destruct (normal 0 0.5 (gen st)) as [z g1]; simpl.
  destruct (random g1) as [u g2]; reflexivity.
Qed.

Lemma body_accept func st i :
  (uniform_draw st <=? acceptance_ratio func st)%float = true ->
  body func st i =
    Chain (<[i := candidate_position st]> (samples st))
          (candidate_position st) (candidate_density func st) (gen_after st).
Proof. intros Hacc. rewrite body_cases, Hacc. reflexivity. Qed.

Lemma body_reject func st i :
  (uniform_draw st <=? acceptance_ratio func st)%float = false ->
  body func st i =
    Chain (<[i := old_x st]> (samples st))
          (old_x st) (old_prob st) (gen_after st).
Proof. intros Hrej. rewrite body_cases, Hrej. reflexivity. Qed.

(** An iteration leaves the generator in the same state whichever branch
    it takes. *)
Lemma body_gen func st i : gen (body func st i) = gen_after st.
Proof.
  rewrite body_cases.
  destruct (uniform_draw st <=? acceptance_ratio func st)%float; reflexivity.
Qed.

(** Iteration [i] assigns to [samples[i]] and to no other entry. *)
Lemma body_length func st i :
  length (samples (body func st i)) = length (samples st).
Proof.
  rewrite body_cases.
  destruct (uniform_draw st <=? acceptance_ratio func st)%float; simpl;
    apply length_insert.
Qed.

Lemma body_elsewhere func st i j :
  i <> j -> samples (body func st i) !! j = samples st !! j.
Proof.
  intros Hij. rewrite body_cases.
  destruct (uniform_draw st <=? acceptance_ratio func st)%float; simpl;
    apply list_lookup_insert_ne; exact Hij.
Qed.

Lemma chain_at_0 func steps g :
  chain_at func steps g 0 =
    start func (replicate (Z.to_nat steps) 0%float) g.
Proof. reflexivity. Qed.

Lemma chain_at_S func steps g k :
  chain_at func steps g (S k) = body func (chain_at func steps g k) k.
Proof.
  unfold chain_at. rewrite seq_S, fold_left_app. reflexivity.
Qed.

Lemma chain_at_length func steps g k :
  length (samples (chain_at func steps g k)) = Z.to_nat steps.
Proof.
  induction k as [|k IH].
  - rewrite chain_at_0. simpl. apply length_replicate.
  - rewrite chain_at_S, body_length. exact IH.
Qed.

(** Once iteration [j] is over, [samples[j]] is final. *)
Lemma chain_at_settled func steps g j k :
  j < k ->
  samples (chain_at func steps g k) !! j =
  samples (chain_at func steps g (S j)) !! j.
Proof.
  induction k as [|k IH]; intros Hjk; [lia|].
  destruct (decide (j = k)) as [->|Hne]; [reflexivity|].
  rewrite chain_at_S, body_elsewhere by lia.
  apply IH. lia.
Qed.

(** A run with a non-negative [steps] returns the array the loop leaves. *)
Lemma metropolis_returns func steps g :
  (0 <= steps)%Z ->
  metropolis func steps g =
    (inr (samples (chain_at func steps g (Z.to_nat steps))),
     gen (chain_at func steps g (Z.to_nat steps))).
Proof.
  intros Hsteps. unfold metropolis, np_zeros.
  destruct (Z.ltb_spec steps 0) as [Hneg|_]; [lia|]. reflexivity.
Qed.

(** The entry a run returns at index [i] is the one iteration [i] wrote. *)
Lemma metropolis_entry func steps g i :
  (Z.of_nat i < steps)%Z ->
  exists out g',
    metropolis func steps g = (inr out, g') /\
    out !! i = samples (body func (chain_at func steps g i) i) !! i.
Proof.
  intros Hi. eexists _, _. split.
  - apply metropolis_returns. lia.
  - rewrite chain_at_settled by lia. rewrite chain_at_S. reflexivity.
Qed.

Lemma lookup_written func steps g i (x : float) :
  (Z.of_nat i < steps)%Z ->
  <[i := x]> (samples (chain_at func steps g i)) !! i = Some x.
Proof.
  intros Hi. apply list_lookup_insert_eq.
  rewrite chain_at_length. lia.
Qed.

(** At the head of iteration [i] the entries from [i] on are still the
    zeros of the allocation. *)
Lemma unwritten_zero func steps g i j :
  i <= j -> (Z.of_nat j < steps)%Z ->
  samples (chain_at func steps g i) !! j = Some 0%float.
Proof.
  induction i as [|i IH]; intros Hij Hj.
  - rewrite chain_at_0. simpl. apply lookup_replicate_2. lia.
  - rewrite chain_at_S, body_elsewhere by lia. apply IH; lia.
Qed.

End Loop.

(** ** Acceptance, rejection and the shape of the result *)

Section Iterations.
Context {G : Type} `{RandomSource G}.
Implicit Types (func : distribution) (g : G).

(** C1.  In an iteration [i] of a run whose acceptance ratio
    [candidate_density / current_density] is greater than or equal to the
    uniform draw, the entry of the returned sequence at [i] is the
    candidate position (the current position plus the normal offset of
    that iteration), and the candidate position and density are the
    current position and density of the following iteration. *)
Theorem accepted_candidate_is_recorded func steps g i :
  (Z.of_nat i < steps)%Z ->
  (uniform_draw (chain_at func steps g i)
     <=? acceptance_ratio func (chain_at func steps g i))%float = true ->
  exists out g',
    metropolis func steps g = (inr out, g') /\
    out !! i = Some (candidate_position (chain_at func steps g i)) /\
    candidate_position (chain_at func steps g i) =
      (old_x (chain_at func steps g i)
       + (normal 0 0.5 (gen (chain_at func steps g i))).1)%float /\
    old_x (chain_at func steps g (S i)) =
      candidate_position (chain_at func steps g i) /\
    old_prob (chain_at func steps g (S i)) =
      candidate_density func (chain_at func steps g i).
Proof.
  intros Hi Hacc.
  destruct (metropolis_entry func steps g i Hi) as (out & g' & Hrun & Hout).
  exists out, g'. rewrite chain_at_S, (body_accept _ _ _ Hacc).
  rewrite Hout, (body_accept _ _ _ Hacc). simpl.
  repeat split; try reflexivity; [exact Hrun|].
  apply lookup_written, Hi.
Qed.

(** C2.  In an iteration [i] of a run whose acceptance ratio is strictly
    less than the uniform draw, the entry of the returned sequence at
    [i] is the unchanged current position, and the current position and
    its cached density are the same before and after the iteration. *)
Theorem rejected_candidate_leaves_chain func steps g i :
  (Z.of_nat i < steps)%Z ->
  (acceptance_ratio func (chain_at func steps g i)
     <? uniform_draw (chain_at func steps g i))%float = true ->
  exists out g',
    metropolis func steps g = (inr out, g') /\
    out !! i = Some (old_x (chain_at func steps g i)) /\
    old_x (chain_at func steps g (S i)) = old_x (chain_at func steps g i) /\
    old_prob (chain_at func steps g (S i)) =
      old_prob (chain_at func steps g i).
Proof.
  intros Hi Hlt. apply ltb_not_geb in Hlt.
  destruct (metropolis_entry func steps g i Hi) as (out & g' & Hrun & Hout).
  exists out, g'. rewrite chain_at_S, (body_reject _ _ _ Hlt).
  rewrite Hout, (body_reject _ _ _ Hlt). simpl.
  repeat split; try reflexivity; [exact Hrun|].
  apply lookup_written, Hi.
Qed.

(** C3.  For [steps = N >= 1] the sampler returns a sequence of exactly
    [N] values.  Iteration [i] finds the entries from [i] on still at the
    zeros of the allocation, writes exactly one entry, the one at index
    [i], with the sample of the iteration (the candidate position if the
    test succeeds, the current position otherwise), and that entry is the
    one returned at [i]. *)
Theorem returns_one_sample_per_step func steps g :
  (1 <= steps)%Z ->
  exists out g',
    metropolis func steps g = (inr out, g') /\
    Z.of_nat (length out) = steps /\
    forall i, (Z.of_nat i < steps)%Z ->
      exists x,
        x = (if (uniform_draw (chain_at func steps g i)
                   <=? acceptance_ratio func (chain_at func steps g i))%float
             then candidate_position (chain_at func steps g i)
             else old_x (chain_at func steps g i)) /\
        (forall j, i <= j -> (Z.of_nat j < steps)%Z ->
           samples (chain_at func steps g i) !! j = Some 0%float) /\
        samples (chain_at func steps g (S i)) =
          <[i := x]> (samples (chain_at func steps g i)) /\
        out !! i = Some x.
Proof.
  intros Hsteps. eexists _, _. split; [apply metropolis_returns; lia|].
  split; [rewrite chain_at_length; lia|].
  intros i Hi. eexists. split; [reflexivity|].
  split; [intros j Hij Hj; apply unwritten_zero; assumption|].
  rewrite chain_at_settled by lia.
  rewrite chain_at_S, body_cases.
  destruct (uniform_draw _ <=? acceptance_ratio func _)%float; simpl;
    (split; [reflexivity|]); apply lookup_written, Hi.
Qed.

End Iterations.

Lemma accepted_candidate_is_recorded_witness :
  exists out g',
    metropolis norm_at_0_and_03 1 ([0.6; 0.1]%float : script) = (inr out, g') /\
    out !! 0 =
      Some (candidate_position
              (chain_at norm_at_0_and_03 1 ([0.6; 0.1]%float : script) 0)) /\
    candidate_position (chain_at norm_at_0_and_03 1 ([0.6; 0.1]%float : script) 0) =
      (old_x (chain_at norm_at_0_and_03 1 ([0.6; 0.1]%float : script) 0)
       + (normal 0 0.5
            (gen (chain_at norm_at_0_and_03 1 ([0.6; 0.1]%float : script) 0))).1)%float /\
    old_x (chain_at norm_at_0_and_03 1 ([0.6; 0.1]%float : script) 1) =
      candidate_position
        (chain_at norm_at_0_and_03 1 ([0.6; 0.1]%float : script) 0) /\
    old_prob (chain_at norm_at_0_and_03 1 ([0.6; 0.1]%float : script) 1) =
      candidate_density norm_at_0_and_03
        (chain_at norm_at_0_and_03 1 ([0.6; 0.1]%float : script) 0).
Proof.
  apply (accepted_candidate_is_recorded
           norm_at_0_and_03 1 ([0.6; 0.1]%float : script) 0).
  - lia.
  - vm_compute. reflexivity.
Defined.

Lemma rejected_candidate_leaves_chain_witness :
  exists out g',
    metropolis uniform_01 1 ([-1.5; 0.5]%float : script) = (inr out, g') /\
    out !! 0 =
      Some (old_x (chain_at uniform_01 1 ([-1.5; 0.5]%float : script) 0)) /\
    old_x (chain_at uniform_01 1 ([-1.5; 0.5]%float : script) 1) =
      old_x (chain_at uniform_01 1 ([-1.5; 0.5]%float : script) 0) /\
    old_prob (chain_at uniform_01 1 ([-1.5; 0.5]%float : script) 1) =
      old_prob (chain_at uniform_01 1 ([-1.5; 0.5]%float : script) 0).
Proof.
  apply (rejected_candidate_leaves_chain
           uniform_01 1 ([-1.5; 0.5]%float : script) 0).
  - lia.
  - vm_compute. reflexivity.
Defined.

Lemma returns_one_sample_per_step_witness :
  exists out g',
    metropolis uniform_01 3 ([0.5; 0.25; -2; 0.5; 1; 0.75]%float : script)
      = (inr out, g') /\
    Z.of_nat (length out) = 3%Z /\
    forall i, (Z.of_nat i < 3)%Z ->
      exists x,
        x = (if (uniform_draw
                   (chain_at uniform_01 3
                      ([0.5; 0.25; -2; 0.5; 1; 0.75]%float : script) i)
                 <=? acceptance_ratio uniform_01
                       (chain_at uniform_01 3
                          ([0.5; 0.25; -2; 0.5; 1; 0.75]%float : script) i))%float
             then candidate_position
                    (chain_at uniform_01 3
                       ([0.5; 0.25; -2; 0.5; 1; 0.75]%float : script) i)
             else old_x
                    (chain_at uniform_01 3
                       ([0.5; 0.25; -2; 0.5; 1; 0.75]%float : script) i)) /\
        (forall j, i <= j -> (Z.of_nat j < 3)%Z ->
           samples (chain_at uniform_01 3
                      ([0.5; 0.25; -2; 0.5; 1; 0.75]%float : script) i) !! j
             = Some 0%float) /\
        samples (chain_at uniform_01 3
                   ([0.5; 0.25; -2; 0.5; 1; 0.75]%float : script) (S i)) =
          <[i := x]> (samples (chain_at uniform_01 3
                         ([0.5; 0.25; -2; 0.5; 1; 0.75]%float : script) i)) /\
        out !! i = Some x.
Proof.
  apply (returns_one_sample_per_step
           uniform_01 3 ([0.5; 0.25; -2; 0.5; 1; 0.75]%float : script)).
  lia.
Defined.

(** ** The one-step scenario on the standard normal *)

(** C4.  Target: the standard normal ([mean() = 0], and [pdf] returning the
    binary64 values of the density at [0] and at [0.3]); [steps = 1], hence
    initial position [0]; proposal deviation [0.5]; the normal draw
    returns [0.3] and the uniform draw [0.1].  Then the candidate position
    is [0.3], the acceptance ratio is [phi(0.3) / phi(0)], which is
    [0.9559974818331] in binary64 (within [0.0005] of [0.9558]) and is at
    least [0.1]; the candidate is accepted and the returned sequence is
    exactly [[0.3]]. *)
Theorem standard_normal_one_step {G : Type} `{RandomSource G}
    (func : distribution) (g g1 g2 : G) :
  mean func = 0%float ->
  pdf func 0%float = phi_0 ->
  pdf func 0.3%float = phi_03 ->
  normal 0 0.5 g = (0.3%float, g1) ->
  random g1 = (0.1%float, g2) ->
  candidate_position (chain_at func 1 g 0) = 0.3%float /\
  candidate_density func (chain_at func 1 g 0) = phi_03 /\
  old_prob (chain_at func 1 g 0) = phi_0 /\
  acceptance_ratio func (chain_at func 1 g 0) = (phi_03 / phi_0)%float /\
  (phi_03 / phi_0 = 0.9559974818331)%float /\
  (abs (phi_03 / phi_0 - 0.9558) <? 0.0005)%float = true /\
  (0.1 <=? phi_03 / phi_0)%float = true /\
  metropolis func 1 g = (inr [0.3%float], g2).
Proof.
  intros Hmean Hpdf0 Hpdf03 Hnormal Hrandom.
  assert (Hpos : candidate_position (chain_at func 1 g 0) = 0.3%float).
  { unfold candidate_position, offset. rewrite chain_at_0. simpl.
    rewrite Hnormal, Hmean. reflexivity. }
  assert (Hold : old_prob (chain_at func 1 g 0) = phi_0).
  { rewrite chain_at_0. simpl. rewrite Hmean. exact Hpdf0. }
  assert (Hratio : acceptance_ratio func (chain_at func 1 g 0)
                   = (phi_03 / phi_0)%float).
  { unfold acceptance_ratio, candidate_density.
    rewrite Hpos, Hpdf03, Hold. reflexivity. }
  assert (Hu : uniform_draw (chain_at func 1 g 0) = 0.1%float).
  { unfold uniform_draw. rewrite chain_at_0. simpl.
    rewrite Hnormal. simpl. rewrite Hrandom. reflexivity. }
  assert (Hafter : gen_after (chain_at func 1 g 0) = g2).
  { unfold gen_after. rewrite chain_at_0. simpl.
    rewrite Hnormal. simpl. rewrite Hrandom. reflexivity. }
  repeat split; try assumption; try (vm_compute; reflexivity).
  - unfold candidate_density. rewrite Hpos. exact Hpdf03.
  - rewrite metropolis_returns by lia.
    change (Z.to_nat 1) with 1%nat. rewrite chain_at_S.
    rewrite body_accept by (rewrite Hu, Hratio; vm_compute; reflexivity).
    simpl. rewrite Hpos, Hafter. reflexivity.
Qed.

Lemma standard_normal_one_step_witness :
  candidate_position
    (chain_at norm_at_0_and_03 1 ([0.6; 0.1]%float : script) 0) = 0.3%float /\
  candidate_density norm_at_0_and_03
    (chain_at norm_at_0_and_03 1 ([0.6; 0.1]%float : script) 0) = phi_03 /\
  old_prob (chain_at norm_at_0_and_03 1 ([0.6; 0.1]%float : script) 0)
    = phi_0 /\
  acceptance_ratio norm_at_0_and_03
    (chain_at norm_at_0_and_03 1 ([0.6; 0.1]%float : script) 0)
    = (phi_03 / phi_0)%float /\
  (phi_03 / phi_0 = 0.9559974818331)%float /\
  (abs (phi_03 / phi_0 - 0.9558) <? 0.0005)%float = true /\
  (0.1 <=? phi_03 / phi_0)%float = true /\
  metropolis norm_at_0_and_03 1 ([0.6; 0.1]%float : script)
    = (inr [0.3%float], ([] : script)).
Proof.
  apply (standard_normal_one_step norm_at_0_and_03
           ([0.6; 0.1]%float : script) ([0.1]%float : script) ([] : script));
    vm_compute; reflexivity.
Defined.

(** ** A candidate outside the support *)

Section ZeroDensityCandidate.
Context {G : Type} `{RandomSource G}.

(** A candidate of density zero, proposed from a position of positive
    density, has acceptance ratio zero and is rejected by every uniform
    draw above zero. *)
Lemma zero_density_rejected_above_zero
    (func : distribution) (st : chain G) (i : nat) :
  (0 <? old_prob st)%float = true ->
  candidate_density func st = 0%float ->
  (0 <? uniform_draw st)%float = true ->
  acceptance_ratio func st = 0%float /\
  body func st i =
    Chain (<[i := old_x st]> (samples st))
          (old_x st) (old_prob st) (gen_after st).
Proof.
  intros Hold Hcand Hu.
  assert (Hratio : acceptance_ratio func st = 0%float).
  { unfold acceptance_ratio. rewrite Hcand. apply div_zero_pos, Hold. }
  split; [exact Hratio|].
  apply body_reject. rewrite Hratio. apply ltb_not_geb, Hu.
Qed.

End ZeroDensityCandidate.

(** C5.  The run [metropolis(stats.uniform(), 1)] in which the normal draw
    returns [-0.75] and the uniform draw returns [0.0]: the current
    position [0.5] has density one, the candidate [-0.25] has density
    zero and the acceptance ratio is zero, yet the test [0.0 >= 0.0]
    succeeds and the candidate is recorded. *)
Theorem zero_density_candidate_accepted_at_zero_draw :
  old_x (chain_at uniform_01 1 ([-1.5; 0]%float : script) 0) = 0.5%float /\
  old_prob (chain_at uniform_01 1 ([-1.5; 0]%float : script) 0) = 1%float /\
  candidate_position (chain_at uniform_01 1 ([-1.5; 0]%float : script) 0)
    = (-0.25)%float /\
  candidate_density uniform_01
    (chain_at uniform_01 1 ([-1.5; 0]%float : script) 0) = 0%float /\
  acceptance_ratio uniform_01
    (chain_at uniform_01 1 ([-1.5; 0]%float : script) 0) = 0%float /\
  uniform_draw (chain_at uniform_01 1 ([-1.5; 0]%float : script) 0)
    = 0%float /\
  metropolis uniform_01 1 ([-1.5; 0]%float : script)
    = (inr [(-0.25)%float], ([] : script)).
Proof. repeat split; vm_compute; reflexivity. Qed.

(** ** Invalid configurations *)

(** C6, as stated, fails: [steps = 0] is below one, and the sampler
    returns the empty sequence instead of failing. *)
Lemma zero_steps_is_not_an_error :
  metropolis uniform_01 0 ([] : script) = (inr [], ([] : script)) /\
  ~ exists e, (metropolis uniform_01 0 ([] : script)).1 = inl e.
Proof.
  split; [reflexivity|]. intros [e He]. vm_compute in He. discriminate.
Qed.

(** C6, amended.  With [steps < 1] no iteration runs and nothing is drawn
    from the random source (its state, and the journal of its calls, are
    those of before the call).  A negative [steps] fails with the
    [ValueError] of the array allocation; [steps = 0] is not an error and
    returns the empty sequence. *)
Theorem steps_below_one {G : Type} `{RandomSource G}
    (func : distribution) (steps : Z) (g : G) :
  (steps < 1)%Z ->
  metropolis func steps g =
    (if (steps <? 0)%Z then inl ValueError else inr [], g) /\
  forall log : list draw, (metropolis func steps (g, log)).2 = (g, log).
Proof.
  intros Hsteps. unfold metropolis, np_zeros.
  destruct (Z.ltb_spec steps 0) as [Hneg|Hnonneg].
  - split; [reflexivity|]. intros log. reflexivity.
  - assert (steps = 0%Z) as -> by lia.
    split; [reflexivity|]. intros log. reflexivity.
Qed.

Lemma steps_below_one_witness :
  metropolis uniform_01 (-1) ([0.5; 0.5]%float : script) =
    (if (-1 <? 0)%Z then inl ValueError else inr [],
     ([0.5; 0.5]%float : script)) /\
  forall log : list draw,
    (metropolis uniform_01 (-1) (([0.5; 0.5]%float : script), log)).2
      = (([0.5; 0.5]%float : script), log).
Proof.
  apply (steps_below_one uniform_01 (-1) ([0.5; 0.5]%float : script)). lia.
Defined.

(** ** Reproducibility *)

Lemma cons_pair_inv {A B : Type} (a a' : A) (b b' : B) (l l' : list (A * B)) :
  (a, b) :: l = (a', b') :: l' -> a = a' /\ b = b' /\ l = l'.
Proof. intros Heq. injection Heq as -> -> ->. auto. Qed.

Section SameDraws.
Context {G1 : Type} {S1 : RandomSource G1} {G2 : Type} {S2 : RandomSource G2}.
Implicit Types (func : distribution).

(** What a generator delivers to the iterations still to come, seen from
    the head of an iteration. *)
Lemma draws_S {G : Type} `{RandomSource G} (m : nat) (st : chain G) :
  draws (S m) (gen st) =
    (offset st, uniform_draw st) :: draws m (gen_after st).
Proof.
  unfold offset, uniform_draw, gen_after. simpl.
  destruct (normal 0 0.5 (gen st)) as [z g1]. simpl.
  destruct (random g1) as [u g2]. reflexivity.
Qed.

(** Two runs that are delivered the same values, on targets that agree,
    go through the same positions, densities and arrays. *)
Lemma same_draws_same_walk func func' (n : nat) (g1 : G1) (g2 : G2) k :
  mean func = mean func' ->
  (forall x, pdf func x = pdf func' x) ->
  draws n g1 = draws n g2 ->
  k <= n ->
  samples (chain_at func (Z.of_nat n) g1 k)
    = samples (chain_at func' (Z.of_nat n) g2 k) /\
  old_x (chain_at func (Z.of_nat n) g1 k)
    = old_x (chain_at func' (Z.of_nat n) g2 k) /\
  old_prob (chain_at func (Z.of_nat n) g1 k)
    = old_prob (chain_at func' (Z.of_nat n) g2 k) /\
  draws (n - k) (gen (chain_at func (Z.of_nat n) g1 k))
    = draws (n - k) (gen (chain_at func' (Z.of_nat n) g2 k)).
Proof.
  intros Hmean Hpdf Hdraws. induction k as [|k IH]; intros Hk.
  - rewrite !chain_at_0. unfold start. simpl.
    rewrite Nat.sub_0_r, Hmean, Hpdf. auto.
  - destruct IH as (Hs & Hx & Hp & Hd); [lia|].
    replace (n - k) with (S (n - S k)) in Hd by lia.
    rewrite !draws_S in Hd.
    apply cons_pair_inv in Hd as (Hz & Hu & Hrest).
    assert (Hc : candidate_position (chain_at func (Z.of_nat n) g1 k)
                 = candidate_position (chain_at func' (Z.of_nat n) g2 k))
      by (unfold candidate_position; rewrite Hx, Hz; reflexivity).
    assert (Hcd : candidate_density func (chain_at func (Z.of_nat n) g1 k)
                  = candidate_density func' (chain_at func' (Z.of_nat n) g2 k))
      by (unfold candidate_density; rewrite Hc; apply Hpdf).
    rewrite !chain_at_S, !body_cases.
    unfold acceptance_ratio. rewrite Hu, Hcd, Hp, Hs, Hx, Hc.
    destruct (_ <=? _)%float; simpl; auto.
Qed.

(** C7.  The sequence returned depends on the generator only through the
    values it delivers: two invocations with identical inputs (targets
    with the same mean and the same density everywhere, the same step
    count), whose generators deliver the same normal and uniform values as
    generators set to the same seed do, return identical sequences,
    whatever else differs in the state of the generators. *)
Theorem same_draws_same_samples func func' (n : nat) (g1 : G1) (g2 : G2) :
  mean func = mean func' ->
  (forall x, pdf func x = pdf func' x) ->
  draws n g1 = draws n g2 ->
  (metropolis func (Z.of_nat n) g1).1 = (metropolis func' (Z.of_nat n) g2).1.
Proof.
  intros Hmean Hpdf Hdraws.
  rewrite !metropolis_returns by lia. simpl. rewrite Nat2Z.id.
  destruct (same_draws_same_walk func func' n g1 g2 n Hmean Hpdf Hdraws)
    as (Hs & _); [lia|].
  rewrite Hs. reflexivity.
Qed.

End SameDraws.

Lemma same_draws_same_samples_witness :
  (metropolis uniform_01 (Z.of_nat 2)
     ([0.5; 0.25; -2; 0.5]%float : script)).1
  = (metropolis uniform_01 (Z.of_nat 2)
       (([0.5; 0.25; -2; 0.5; 1; 0.75]%float : script),
        [DrawUniform; DrawUniform])).1.
Proof.
  apply (same_draws_same_samples uniform_01 uniform_01 2
           ([0.5; 0.25; -2; 0.5]%float : script)
           (([0.5; 0.25; -2; 0.5; 1; 0.75]%float : script),
            [DrawUniform; DrawUniform])).
  - reflexivity.
  - intros x. reflexivity.
  - vm_compute. reflexivity.
Defined.

(** ** The draws of a run *)

Section Journal.
Context {G : Type} `{RandomSource G}.
Implicit Types (func : distribution) (g : G) (log : list draw).

Lemma run_draws_S n : run_draws (S n) = run_draws n ++ iteration_draws.
Proof.
  unfold run_draws. rewrite replicate_S_end, concat_app. reflexivity.
Qed.

Lemma run_draws_length n : length (run_draws n) = 2 * n.
Proof.
  induction n as [|n IH]; [reflexivity|].
  rewrite run_draws_S, length_app, IH. simpl. lia.
Qed.

(** One iteration appends one normal and then one uniform draw. *)
Lemma journal_body func (st : chain (G * list draw)) i :
  (gen (body func st i)).2 = (gen st).2 ++ iteration_draws.
Proof.
  rewrite body_gen. unfold gen_after. simpl.
  destruct (normal 0 0.5 (gen st).1) as [z g1]. simpl.
  destruct (random g1) as [u g2]. simpl.
  rewrite <- app_assoc. reflexivity.
Qed.

Lemma journal_chain_at func steps g log k :
  (gen (chain_at func steps (g, log) k)).2 = log ++ run_draws k.
Proof.
  induction k as [|k IH].
  - rewrite chain_at_0. simpl. rewrite app_nil_r. reflexivity.
  - rewrite chain_at_S, journal_body, IH, run_draws_S, app_assoc.
    reflexivity.
Qed.

Lemma journal_metropolis func (n : nat) g log :
  (metropolis func (Z.of_nat n) (g, log)).2.2 = log ++ run_draws n.
Proof.
  rewrite metropolis_returns by lia. simpl.
  rewrite Nat2Z.id. apply journal_chain_at.
Qed.

(** Keeping the journal changes nothing else: the journaled run goes
    through the same states as the plain one. *)
Lemma journaled_body func (a : chain (G * list draw)) (b : chain G) i :
  samples a = samples b -> old_x a = old_x b -> old_prob a = old_prob b ->
  (gen a).1 = gen b ->
  samples (body func a i) = samples (body func b i) /\
  old_x (body func a i) = old_x (body func b i) /\
  old_prob (body func a i) = old_prob (body func b i) /\
  (gen (body func a i)).1 = gen (body func b i).
Proof.
  intros Hs Hx Hp Hg. unfold body. simpl. rewrite Hs, Hx, Hp, Hg.
  destruct (normal 0 0.5 (gen b)) as [z g1]. simpl.
  destruct (random g1) as [u g2].
  destruct (u <=? pdf func (old_x b + z) / old_prob b)%float; simpl; auto.
Qed.

Lemma journaled_chain_at func steps g log k :
  samples (chain_at func steps (g, log) k) = samples (chain_at func steps g k)
  /\ old_x (chain_at func steps (g, log) k) = old_x (chain_at func steps g k)
  /\ old_prob (chain_at func steps (g, log) k)
     = old_prob (chain_at func steps g k)
  /\ (gen (chain_at func steps (g, log) k)).1 = gen (chain_at func steps g k).
Proof.
  induction k as [|k (Hs & Hx & Hp & Hg)].
  - rewrite !chain_at_0. simpl. auto.
  - rewrite !chain_at_S. apply journaled_body; assumption.
Qed.

Lemma journaled_metropolis func steps g log :
  (metropolis func steps (g, log)).1 = (metropolis func steps g).1 /\
  (metropolis func steps (g, log)).2.1 = (metropolis func steps g).2.
Proof.
  destruct (Z.ltb_spec steps 0) as [Hneg|Hnonneg].
  - unfold metropolis, np_zeros.
    destruct (Z.ltb_spec steps 0); [|lia]. split; reflexivity.
  - rewrite !metropolis_returns by lia. simpl.
    destruct (journaled_chain_at func steps g log (Z.to_nat steps))
      as (Hs & _ & _ & Hg).
    rewrite Hs, Hg. split; reflexivity.
Qed.

(** C8.  Every iteration makes exactly two calls to the random source,
    a normal draw and then a uniform draw, whichever branch it takes; a
    run of [n] steps makes exactly [2 n] calls, in that order, and
    returns what the run without the journal returns. *)
Theorem two_draws_per_iteration func (n : nat) g log :
  (forall (st : chain (G * list draw)) i,
     (gen (body func st i)).2 = (gen st).2 ++ [DrawNormal 0 0.5; DrawUniform])
  /\ (metropolis func (Z.of_nat n) (g, log)).2.2
     = log ++ concat (replicate n [DrawNormal 0 0.5; DrawUniform])
  /\ length (metropolis func (Z.of_nat n) (g, log)).2.2 = length log + 2 * n
  /\ (metropolis func (Z.of_nat n) (g, log)).1
     = (metropolis func (Z.of_nat n) g).1.
Proof.
  split; [intros st i; apply journal_body|].
  rewrite journal_metropolis, length_app, run_draws_length.
  repeat split; try reflexivity.
  apply journaled_metropolis.
Qed.

End Journal.

(** ** The proposal deviation *)

Lemma run_draws_In (d : draw) (n : nat) :
  In d (run_draws n) -> d = DrawNormal 0 0.5 \/ d = DrawUniform.
Proof.
  induction n as [|n IH]; [intros []|].
  rewrite run_draws_S. intros Hin. apply in_app_or in Hin as [Hin|Hin].
  - apply IH, Hin.
  - destruct Hin as [<-|[<-|[]]]; auto.
Qed.

Lemma no_normal_draw_of_deviation_one :
  DrawNormal 0 1 <> DrawNormal 0 0.5 /\ DrawNormal 0 1 <> DrawUniform.
Proof.
  split; intros Heq;
    apply (f_equal (fun d => match d with
                             | DrawNormal _ scale => (scale =? 1)%float
                             | DrawUniform => false
                             end)) in Heq;
    vm_compute in Heq; discriminate.
Qed.

(** C9, as stated, fails: were the deviation a parameter of the sampler,
    every deviation could be requested; no invocation ever draws a
    proposal of deviation [1.0]. *)
Lemma proposal_deviation_not_exposed :
  ~ (forall sigma : float,
       exists (func : distribution) (steps : Z) (s : script),
         (1 <= steps)%Z /\
         In (DrawNormal 0 sigma)
            (metropolis func steps (s, @nil draw)).2.2).
Proof.
  intros Hall.
  destruct (Hall 1%float) as (func & steps & s & Hsteps & Hin).
  rewrite <- (Z2Nat.id steps) in Hin by lia.
  rewrite journal_metropolis in Hin. simpl in Hin.
  destruct no_normal_draw_of_deviation_one as [Hnormal Huniform].
  apply run_draws_In in Hin as [Heq|Heq]; [exact (Hnormal Heq)|].
  exact (Huniform Heq).
Qed.

(** C9, amended.  The sampler takes the target and the step count only;
    every proposal offset is requested from the random source as
    [normal(0, 0.5)], a zero-mean normal draw of the fixed deviation
    [0.5], and the position after an iteration is either the position
    before it plus that offset or the position before it. *)
Theorem proposal_deviation_is_fixed {G : Type} `{RandomSource G}
    (func : distribution) (n : nat) (g : G) :
  Forall (fun d => d = DrawNormal 0 0.5 \/ d = DrawUniform)
         (metropolis func (Z.of_nat n) (g, @nil draw)).2.2 /\
  forall i,
    old_x (chain_at func (Z.of_nat n) g (S i)) =
      (old_x (chain_at func (Z.of_nat n) g i)
       + (normal 0 0.5 (gen (chain_at func (Z.of_nat n) g i))).1)%float \/
    old_x (chain_at func (Z.of_nat n) g (S i)) =
      old_x (chain_at func (Z.of_nat n) g i).
Proof.
  split.
  - rewrite journal_metropolis. simpl.
    apply List.Forall_forall. intros d Hd. exact (run_draws_In d n Hd).
  - intros i. rewrite chain_at_S, body_cases.
    destruct (uniform_draw _ <=? acceptance_ratio func _)%float; simpl;
      [left|right]; reflexivity.
Qed.

(** ** Starting where the density is zero *)

Section ZeroDensityStart.
Context {G : Type} `{RandomSource G}.
Implicit Types (func : distribution) (g : G).

(** From a position of density zero, a candidate of density zero is
    rejected: the ratio [0 / 0] is a NaN, which no draw is below. *)
Lemma zero_over_zero_rejected func (st : chain G) i :
  old_prob st = 0%float ->
  candidate_density func st = 0%float ->
  body func st i =
    Chain (<[i := old_x st]> (samples st))
          (old_x st) (old_prob st) (gen_after st).
Proof.
  intros Hold Hcand. apply body_reject.
  unfold acceptance_ratio. rewrite Hcand, Hold.
  change (0 / 0)%float with nan. apply leb_nan_r.
Qed.

(** From a position of density zero, a candidate of positive density is
    accepted: the ratio is [+infinity], which every draw is below. *)
Lemma positive_over_zero_accepted func (st : chain G) i :
  old_prob st = 0%float ->
  (0 <? candidate_density func st)%float = true ->
  (0 <=? uniform_draw st)%float = true ->
  body func st i =
    Chain (<[i := candidate_position st]> (samples st))
          (candidate_position st) (candidate_density func st)
          (gen_after st).
Proof.
  intros Hold Hcand Hu. apply body_accept.
  unfold acceptance_ratio. rewrite Hold, (div_pos_zero _ Hcand).
  apply leb_infinity, Hu.
Qed.

(** The chain stands still while the candidates have density zero. *)
Lemma stuck_while_zero func steps g k :
  pdf func (mean func) = 0%float ->
  (forall i, i < k ->
     candidate_density func (chain_at func steps g i) = 0%float) ->
  old_x (chain_at func steps g k) = mean func /\
  old_prob (chain_at func steps g k) = 0%float.
Proof.
  intros Hstart. induction k as [|k IH]; intros Hzero.
  - rewrite chain_at_0. simpl. auto.
  - destruct IH as [Hx Hp]; [intros i Hi; apply Hzero; lia|].
    rewrite chain_at_S, zero_over_zero_rejected by (auto with lia).
    simpl. auto.
Qed.

End ZeroDensityStart.

(** C10, as stated, fails: the two-humped density is zero at its mean
    [0]; with a normal draw of [1.0] and a uniform draw of [0.5] the ratio
    is [0.5 / 0 = +infinity], the test succeeds, and the sequence
    returned is [[1.0]], not the initial position. *)
Lemma zero_density_start_can_move :
  ~ (forall (func : distribution) (steps : Z) (s s' : script)
            (out : list float),
       pdf func (mean func) = 0%float ->
       metropolis func steps s = (inr out, s') ->
       Forall (fun x => x = mean func) out).
Proof.
  intros Hall.
  assert (Hzero : pdf two_humps (mean two_humps) = 0%float)
    by (vm_compute; reflexivity).
  assert (Hrun : metropolis two_humps 1 ([2; 0.5]%float : script)
                 = (inr [1%float], ([] : script)))
    by (vm_compute; reflexivity).
  pose proof (Hall two_humps 1%Z _ _ _ Hzero Hrun) as Hstuck.
  apply Forall_inv in Hstuck.
  apply (f_equal (fun x => (x =? 0)%float)) in Hstuck.
  vm_compute in Hstuck. discriminate.
Qed.

(** C10, amended.  If the target density is zero at the initial position,
    the chain stays there for as long as the candidates have density zero
    too: the ratio [0 / 0] is a NaN, the test [NaN >= u] fails, and the
    initial position is recorded.  The first candidate of positive density
    has ratio [+infinity] and is accepted by every uniform draw: it is
    recorded and becomes the current position. *)
Theorem zero_density_start {G : Type} `{RandomSource G}
    (func : distribution) (steps : Z) (g : G) (k : nat) :
  pdf func (mean func) = 0%float ->
  (Z.of_nat k < steps)%Z ->
  (forall i, i < k ->
     candidate_density func (chain_at func steps g i) = 0%float) ->
  exists out g',
    metropolis func steps g = (inr out, g') /\
    (forall i, i < k -> out !! i = Some (mean func)) /\
    (candidate_density func (chain_at func steps g k) = 0%float ->
     out !! k = Some (mean func) /\
     old_x (chain_at func steps g (S k)) = mean func) /\
    ((0 <? candidate_density func (chain_at func steps g k))%float = true ->
     (0 <=? uniform_draw (chain_at func steps g k))%float = true ->
     out !! k = Some (candidate_position (chain_at func steps g k)) /\
     old_x (chain_at func steps g (S k)) =
       candidate_position (chain_at func steps g k)).
Proof.
  intros Hstart Hk Hzero.
  exists (samples (chain_at func steps g (Z.to_nat steps))),
         (gen (chain_at func steps g (Z.to_nat steps))).
  split; [apply metropolis_returns; lia|].
  assert (Hstuck : forall j, j <= k ->
            old_x (chain_at func steps g j) = mean func /\
            old_prob (chain_at func steps g j) = 0%float).
  { intros j Hj. apply stuck_while_zero; [exact Hstart|].
    intros i Hi. apply Hzero. lia. }
  split; [|split].
  - intros i Hi. destruct (Hstuck i) as [Hx Hp]; [lia|].
    rewrite chain_at_settled by lia.
    rewrite chain_at_S, zero_over_zero_rejected by auto.
    simpl. rewrite Hx. apply lookup_written. lia.
  - intros Hcand. destruct (Hstuck k) as [Hx Hp]; [lia|].
    rewrite chain_at_settled by lia.
    rewrite chain_at_S, zero_over_zero_rejected by auto.
    simpl. rewrite Hx. split; [apply lookup_written; lia|reflexivity].
  - intros Hcand Hu. destruct (Hstuck k) as [Hx Hp]; [lia|].
    rewrite chain_at_settled by lia.
    rewrite chain_at_S, positive_over_zero_accepted by auto.
    simpl. split; [apply lookup_written; lia|reflexivity].
Qed.

Lemma zero_density_start_witness :
  exists out g',
    metropolis two_humps 3
      ([0.5; 0.5; 2; 0.999; 0.5; 0.7]%float : script) = (inr out, g') /\
    (forall i, i < 1 -> out !! i = Some (mean two_humps)) /\
    (candidate_density two_humps
       (chain_at two_humps 3
          ([0.5; 0.5; 2; 0.999; 0.5; 0.7]%float : script) 1) = 0%float ->
     out !! 1 = Some (mean two_humps) /\
     old_x (chain_at two_humps 3
              ([0.5; 0.5; 2; 0.999; 0.5; 0.7]%float : script) 2)
       = mean two_humps) /\
    ((0 <? candidate_density two_humps
             (chain_at two_humps 3
                ([0.5; 0.5; 2; 0.999; 0.5; 0.7]%float : script) 1))%float
       = true ->
     (0 <=? uniform_draw
              (chain_at two_humps 3
                 ([0.5; 0.5; 2; 0.999; 0.5; 0.7]%float : script) 1))%float
       = true ->
     out !! 1 =
       Some (candidate_position
               (chain_at two_humps 3
                  ([0.5; 0.5; 2; 0.999; 0.5; 0.7]%float : script) 1)) /\
     old_x (chain_at two_humps 3
              ([0.5; 0.5; 2; 0.999; 0.5; 0.7]%float : script) 2) =
       candidate_position
         (chain_at two_humps 3
            ([0.5; 0.5; 2; 0.999; 0.5; 0.7]%float : script) 1)).
Proof.
  apply (zero_density_start two_humps 3
           ([0.5; 0.5; 2; 0.999; 0.5; 0.7]%float : script) 1).
  - vm_compute. reflexivity.
  - lia.
  - intros i Hi. assert (i = 0) as -> by lia. vm_compute. reflexivity.
Defined.

(** * Further properties of the sampler *)

(** ** More facts of binary64 arithmetic *)

Section MoreFloatFacts.
Local Open Scope float_scope.

(** A NaN on either side of a division gives a NaN. *)
Lemma div_nan_r (x : float) : x / nan = nan.
Proof.
  apply Prim2SF_inj. rewrite div_spec.
  change (Prim2SF nan) with S754_nan.
  destruct (Prim2SF x); reflexivity.
Qed.

Lemma div_nan_l (x : float) : nan / x = nan.
Proof.
  apply Prim2SF_inj. rewrite div_spec.
  change (Prim2SF nan) with S754_nan. reflexivity.
Qed.

(** No draw above zero is below a zero of either sign. *)
Lemma SFleb_pos_zero (u : spec_float) (s : bool) :
  SFltb (S754_zero false) u = true -> SFleb u (S754_zero s) = false.
Proof.
  unfold SFltb, SFleb.
  destruct u as [su|su| |su mu eu]; simpl; try discriminate;
    destruct su; simpl; try discriminate; reflexivity.
Qed.

(** A non-negative value over a positive one: either the value is
    positive, or the quotient is a zero and no draw above zero is below
    it. *)
Lemma div_nonneg_pos (q d u : float) :
  (0 <=? q) = true -> (0 <? d) = true -> (0 <? u) = true ->
  (0 <? q) = true \/ (u <=? q / d) = false.
Proof.
  rewrite !ltb_spec, !leb_spec, div_spec.
  change (Prim2SF 0) with (S754_zero false).
  intros Hq Hd Hu.
  destruct (Prim2SF q) as [sq|sq| |sq mq eq]; simpl in Hq; try discriminate.
  - right.
    destruct (Prim2SF d) as [sd|sd| |sd md ed]; simpl in Hd; try discriminate;
      destruct sd; try discriminate; apply SFleb_pos_zero, Hu.
  - destruct sq; try discriminate. left. reflexivity.
  - destruct sq; try discriminate. left. reflexivity.
Qed.

(** Whatever is divided by [+infinity], no draw above zero is below the
    quotient: it is a zero or a NaN. *)
Lemma div_infinity_below (p u : float) :
  (0 <? u) = true -> (u <=? p / infinity) = false.
Proof.
  rewrite ltb_spec, leb_spec, div_spec.
  change (Prim2SF 0) with (S754_zero false).
  change (Prim2SF infinity) with (S754_infinity false).
  intros Hu.
  destruct (Prim2SF p) as [sp|sp| |sp mp ep]; simpl;
    try apply SFleb_pos_zero, Hu;
    unfold SFleb; destruct (Prim2SF u); reflexivity.
Qed.

End MoreFloatFacts.

(** ** The trajectory of the chain *)

Section Trajectory.
Context {G : Type} `{RandomSource G}.
Implicit Types (func : distribution) (g : G).

(** Whichever branch is taken, the value written is the position the
    iteration ends on. *)
Lemma body_records_position func (st : chain G) i :
  samples (body func st i) = <[i := old_x (body func st i)]> (samples st).
Proof.
  rewrite body_cases.
  destruct (uniform_draw st <=? acceptance_ratio func st)%float; reflexivity.
Qed.

(** The position after an iteration is the candidate or the position
    before. *)
Lemma body_position func (st : chain G) i :
  old_x (body func st i) = old_x st \/
  old_x (body func st i) = (old_x st + offset st)%float.
Proof.
  rewrite body_cases.
  destruct (uniform_draw st <=? acceptance_ratio func st)%float; simpl;
    [right|left]; reflexivity.
Qed.

(** [old_prob] is the density at [old_x], at the head of every iteration. *)
Lemma old_prob_cached func steps g k :
  old_prob (chain_at func steps g k) = pdf func (old_x (chain_at func steps g k)).
Proof.
  induction k as [|k IH]; [reflexivity|].
  rewrite chain_at_S, body_cases.
  destruct (uniform_draw _ <=? acceptance_ratio func _)%float; simpl;
    [reflexivity|exact IH].
Qed.

(** The generator goes through the same states whatever the target and
    the length of the array. *)
Lemma gen_free_of_target func func' steps steps' g k :
  gen (chain_at func steps g k) = gen (chain_at func' steps' g k).
Proof.
  induction k as [|k IH]; [reflexivity|].
  rewrite !chain_at_S, !body_gen. unfold gen_after. rewrite IH. reflexivity.
Qed.

(** Position and density do not depend on the length of the array. *)
Lemma walk_free_of_steps func steps steps' g k :
  old_x (chain_at func steps g k) = old_x (chain_at func steps' g k) /\
  old_prob (chain_at func steps g k) = old_prob (chain_at func steps' g k).
Proof.
  induction k as [|k [Hx Hp]]; [split; reflexivity|].
  rewrite !chain_at_S, !body_cases.
  unfold acceptance_ratio, candidate_density, candidate_position,
    uniform_draw, gen_after, offset.
  rewrite Hx, Hp, (gen_free_of_target func func steps steps' g k).
  destruct (_ <=? _)%float; simpl; auto.
Qed.

(** The entry at [i] of the array the loop leaves is the position of the
    chain after iteration [i]. *)
Lemma samples_lookup func (n : nat) g i :
  i < n ->
  samples (chain_at func (Z.of_nat n) g n) !! i =
    Some (old_x (chain_at func (Z.of_nat n) g (S i))).
Proof.
  intros Hi. rewrite chain_at_settled by lia.
  rewrite chain_at_S, body_records_position.
  apply lookup_written. lia.
Qed.

Lemma metropolis_trajectory func (n : nat) g :
  samples (chain_at func (Z.of_nat n) g n) =
    (fun i => old_x (chain_at func (Z.of_nat n) g (S i))) <$> seq 0 n.
Proof.
  apply list_eq. intros i. rewrite list_lookup_fmap.
  destruct (decide (i < n)) as [Hi|Hi].
  - rewrite samples_lookup, lookup_seq_lt by lia. reflexivity.
  - rewrite lookup_seq_ge by lia. apply lookup_ge_None_2.
    rewrite chain_at_length. lia.
Qed.

Lemma metropolis_nat func (n : nat) g :
  metropolis func (Z.of_nat n) g =
    (inr (samples (chain_at func (Z.of_nat n) g n)),
     gen (chain_at func (Z.of_nat n) g n)).
Proof. rewrite metropolis_returns by lia. rewrite Nat2Z.id. reflexivity. Qed.

(** X1.  The ratio tested in an iteration is the density at the candidate
    over the density at the current position: the cached [old_prob] never
    goes stale. *)
Theorem ratio_is_density_ratio func steps g k :
  acceptance_ratio func (chain_at func steps g k) =
    (pdf func (candidate_position (chain_at func steps g k))
     / pdf func (old_x (chain_at func steps g k)))%float.
Proof.
  unfold acceptance_ratio, candidate_density.
  rewrite old_prob_cached. reflexivity.
Qed.

(** X2.  The sequence returned is the trajectory of the chain: its entry
    at [i] is the position the chain has after iteration [i]. *)
Theorem returns_trajectory func (n : nat) g :
  (metropolis func (Z.of_nat n) g).1 =
    inr ((fun i => old_x (chain_at func (Z.of_nat n) g (S i))) <$> seq 0 n).
Proof.
  rewrite metropolis_nat. simpl. rewrite metropolis_trajectory. reflexivity.
Qed.

(** X3.  In every run of at least one step the first sample is the mean
    or the mean plus the first offset; every later sample is the sample
    before it, or the sample before it plus the offset drawn in its
    iteration. *)
Theorem consecutive_samples func steps g :
  (1 <= steps)%Z ->
  exists out g',
    metropolis func steps g = (inr out, g') /\
    (out !! 0 = Some (mean func) \/
     out !! 0 = Some (mean func + offset (chain_at func steps g 0))%float) /\
    forall i, (Z.of_nat (S i) < steps)%Z ->
      exists x y,
        out !! i = Some x /\
        out !! S i = Some y /\
        (y = x \/ y = (x + offset (chain_at func steps g (S i)))%float).
Proof.
  intros Hsteps.
  exists (samples (chain_at func steps g (Z.to_nat steps))),
         (gen (chain_at func steps g (Z.to_nat steps))).
  split; [apply metropolis_returns; lia|].
  assert (Hlookup : forall j, (Z.of_nat j < steps)%Z ->
            samples (chain_at func steps g (Z.to_nat steps)) !! j =
              Some (old_x (chain_at func steps g (S j)))).
  { intros j Hj. rewrite chain_at_settled by lia.
    rewrite chain_at_S, body_records_position.
    apply lookup_written, Hj. }
  split.
  - rewrite Hlookup by lia. rewrite chain_at_S.
    destruct (body_position func (chain_at func steps g 0) 0) as [-> | ->];
      [left|right]; reflexivity.
  - intros i Hi.
    exists (old_x (chain_at func steps g (S i))),
           (old_x (chain_at func steps g (S (S i)))).
    rewrite !Hlookup by lia.
    split; [reflexivity|split; [reflexivity|]].
    rewrite (chain_at_S func steps g (S i)). apply body_position.
Qed.

(** X4.  A shorter run is a prefix of a longer one: from the same
    generator state, the sequence returned for [n] steps is the first [n]
    entries of the sequence returned for [m >= n] steps. *)
Theorem shorter_run_is_prefix func (n m : nat) g :
  n <= m ->
  exists out g',
    metropolis func (Z.of_nat m) g = (inr out, g') /\
    (metropolis func (Z.of_nat n) g).1 = inr (take n out).
Proof.
  intros Hnm. eexists _, _. split; [apply metropolis_nat|].
  rewrite metropolis_nat. simpl. f_equal.
  apply list_eq. intros i.
  destruct (decide (i < n)) as [Hi|Hi].
  - rewrite lookup_take_lt, !samples_lookup by lia.
    f_equal. apply walk_free_of_steps.
  - rewrite lookup_take_ge by lia. apply lookup_ge_None_2.
    rewrite chain_at_length. lia.
Qed.

(** X5.  The draws do not depend on the target: two runs of the same
    length from the same generator state, on whatever targets, see the
    same offsets and the same uniform draws and leave the generator in the
    same state. *)
Theorem generator_ignores_target func func' (n : nat) g :
  (metropolis func (Z.of_nat n) g).2 = (metropolis func' (Z.of_nat n) g).2 /\
  forall k,
    offset (chain_at func (Z.of_nat n) g k)
      = offset (chain_at func' (Z.of_nat n) g k) /\
    uniform_draw (chain_at func (Z.of_nat n) g k)
      = uniform_draw (chain_at func' (Z.of_nat n) g k).
Proof.
  split.
  - rewrite !metropolis_nat. simpl. apply gen_free_of_target.
  - intros k. unfold offset, uniform_draw.
    rewrite (gen_free_of_target func func' (Z.of_nat n) (Z.of_nat n) g k).
    split; reflexivity.
Qed.

End Trajectory.

Lemma consecutive_samples_witness :
  exists out g',
    metropolis uniform_01 3
      ([0.5; 0.25; -2; 0.5; -1; 0.75]%float : script) = (inr out, g') /\
    (out !! 0 = Some (mean uniform_01) \/
     out !! 0 =
       Some (mean uniform_01
             + offset (chain_at uniform_01 3
                         ([0.5; 0.25; -2; 0.5; -1; 0.75]%float : script) 0))%float) /\
    forall i, (Z.of_nat (S i) < 3)%Z ->
      exists x y,
        out !! i = Some x /\
        out !! S i = Some y /\
        (y = x \/
         y = (x + offset (chain_at uniform_01 3
                            ([0.5; 0.25; -2; 0.5; -1; 0.75]%float : script)
                            (S i)))%float).
Proof.
  apply (consecutive_samples uniform_01 3
           ([0.5; 0.25; -2; 0.5; -1; 0.75]%float : script)).
  lia.
Defined.

Lemma shorter_run_is_prefix_witness :
  exists out g',
    metropolis uniform_01 (Z.of_nat 3)
      ([0.5; 0.25; -1.5; 0.5; 1; 0.75]%float : script) = (inr out, g') /\
    (metropolis uniform_01 (Z.of_nat 2)
       ([0.5; 0.25; -1.5; 0.5; 1; 0.75]%float : script)).1
      = inr (take 2 out).
Proof.
  apply (shorter_run_is_prefix uniform_01 2 3
           ([0.5; 0.25; -1.5; 0.5; 1; 0.75]%float : script)).
  lia.
Defined.

(** ** Degenerate densities *)

Section Degenerate.
Context {G : Type} `{RandomSource G}.
Implicit Types (func : distribution) (g : G).

(** While the candidates have a density that is a non-negative number and
    the draws are above zero, the density at the current position stays
    positive. *)
Lemma support_invariant func steps g k :
  (0 <? pdf func (mean func))%float = true ->
  (forall j, j < k ->
     (0 <=? candidate_density func (chain_at func steps g j))%float = true) ->
  (forall j, j < k ->
     (0 <? uniform_draw (chain_at func steps g j))%float = true) ->
  (0 <? old_prob (chain_at func steps g k))%float = true.
Proof.
  intros Hstart. induction k as [|k IH]; intros Hnonneg Hdraws.
  - exact Hstart.
  - assert (Hk : (0 <? old_prob (chain_at func steps g k))%float = true)
      by (apply IH; intros j Hj; [apply Hnonneg|apply Hdraws]; lia).
    rewrite chain_at_S, body_cases.
    destruct (uniform_draw _ <=? acceptance_ratio func _)%float eqn:Htest;
      simpl; [|exact Hk].
    assert (Hu : (0 <? uniform_draw (chain_at func steps g k))%float = true)
      by (apply Hdraws; lia).
    assert (Hq : (0 <=? candidate_density func (chain_at func steps g k))%float
                 = true)
      by (apply Hnonneg; lia).
    destruct (div_nonneg_pos
                (candidate_density func (chain_at func steps g k))
                (old_prob (chain_at func steps g k))
                (uniform_draw (chain_at func steps g k))
                Hq Hk Hu)
      as [Hpos|Hrej]; [exact Hpos|].
    unfold acceptance_ratio in Htest. congruence.
Qed.

(** With a NaN for the density at the start, nothing is ever accepted. *)
Lemma stuck_at_nan func steps g k :
  pdf func (mean func) = nan ->
  old_x (chain_at func steps g k) = mean func /\
  old_prob (chain_at func steps g k) = nan.
Proof.
  intros Hstart. induction k as [|k [Hx Hp]]; [split; [reflexivity|exact Hstart]|].
  rewrite chain_at_S, body_reject; [simpl; auto|].
  unfold acceptance_ratio. rewrite Hp, div_nan_r. apply leb_nan_r.
Qed.

(** At an infinite density, nothing is accepted by a draw above zero. *)
Lemma stuck_at_infinity func steps g k d :
  old_prob (chain_at func steps g k) = infinity ->
  (forall j, k <= j < k + d ->
     (0 <? uniform_draw (chain_at func steps g j))%float = true) ->
  old_x (chain_at func steps g (k + d)) = old_x (chain_at func steps g k) /\
  old_prob (chain_at func steps g (k + d)) = infinity.
Proof.
  intros Hinf. induction d as [|d IH]; intros Hdraws.
  - rewrite Nat.add_0_r. auto.
  - destruct IH as [Hx Hp]; [intros j Hj; apply Hdraws; lia|].
    replace (k + S d) with (S (k + d)) by lia.
    rewrite chain_at_S, body_reject; [simpl; auto|].
    unfold acceptance_ratio. rewrite Hp.
    apply div_infinity_below, Hdraws. lia.
Qed.

(** X6.  The chain does not leave the support: if the density is
    positive at the mean and, up to iteration [i], the density at every
    candidate proposed is a non-negative number (zero outside the support,
    never a NaN) and every uniform draw is above zero, then the sample
    recorded at [i] has positive density. *)
Theorem samples_stay_in_support func steps g i :
  (0 <? pdf func (mean func))%float = true ->
  (Z.of_nat i < steps)%Z ->
  (forall j, j <= i ->
     (0 <=? candidate_density func (chain_at func steps g j))%float = true) ->
  (forall j, j <= i ->
     (0 <? uniform_draw (chain_at func steps g j))%float = true) ->
  exists out g' x,
    metropolis func steps g = (inr out, g') /\
    out !! i = Some x /\
    (0 <? pdf func x)%float = true.
Proof.
  intros Hstart Hi Hnonneg Hdraws.
  exists (samples (chain_at func steps g (Z.to_nat steps))),
         (gen (chain_at func steps g (Z.to_nat steps))),
         (old_x (chain_at func steps g (S i))).
  split; [apply metropolis_returns; lia|]. split.
  - rewrite chain_at_settled by lia.
    rewrite chain_at_S, body_records_position.
    apply lookup_written, Hi.
  - rewrite <- old_prob_cached.
    apply support_invariant; [exact Hstart| |];
      intros j Hj; [apply Hnonneg|apply Hdraws]; lia.
Qed.

(** X7.  A target whose density at the mean is a NaN (as when the mean
    itself is one) gives a chain that never moves: every entry of the
    sequence returned is the mean, whatever is drawn. *)
Theorem nan_start_never_moves func (n : nat) g :
  pdf func (mean func) = nan ->
  (metropolis func (Z.of_nat n) g).1 = inr (replicate n (mean func)).
Proof.
  intros Hstart. rewrite metropolis_nat. simpl. f_equal.
  apply list_eq. intros i.
  destruct (decide (i < n)) as [Hi|Hi].
  - rewrite samples_lookup, lookup_replicate_2 by lia.
    f_equal. apply stuck_at_nan, Hstart.
  - rewrite (proj1 (lookup_replicate_None n (mean func) i)) by lia.
    apply lookup_ge_None_2. rewrite chain_at_length. lia.
Qed.

(** X8.  A candidate at which the density is a NaN is rejected whatever
    the uniform draw: the current position is recorded and kept. *)
Theorem nan_candidate_rejected func steps g i :
  (Z.of_nat i < steps)%Z ->
  candidate_density func (chain_at func steps g i) = nan ->
  exists out g',
    metropolis func steps g = (inr out, g') /\
    out !! i = Some (old_x (chain_at func steps g i)) /\
    old_x (chain_at func steps g (S i)) = old_x (chain_at func steps g i) /\
    old_prob (chain_at func steps g (S i)) = old_prob (chain_at func steps g i).
Proof.
  intros Hi Hcand.
  assert (Hrej : (uniform_draw (chain_at func steps g i)
                    <=? acceptance_ratio func (chain_at func steps g i))%float
                 = false).
  { unfold acceptance_ratio. rewrite Hcand, div_nan_l. apply leb_nan_r. }
  destruct (metropolis_entry func steps g i Hi) as (out & g' & Hrun & Hout).
  exists out, g'. rewrite chain_at_S, (body_reject _ _ _ Hrej).
  rewrite Hout, (body_reject _ _ _ Hrej). simpl.
  repeat split; try reflexivity; [exact Hrun|].
  apply lookup_written, Hi.
Qed.

(** X9.  A position of infinite density absorbs the chain: once the
    current density is [+infinity], every later sample recorded while the
    uniform draws are above zero is that position. *)
Theorem absorbed_at_infinite_density func steps g k i :
  old_prob (chain_at func steps g k) = infinity ->
  k <= i ->
  (Z.of_nat i < steps)%Z ->
  (forall j, k <= j <= i ->
     (0 <? uniform_draw (chain_at func steps g j))%float = true) ->
  exists out g',
    metropolis func steps g = (inr out, g') /\
    out !! i = Some (old_x (chain_at func steps g k)).
Proof.
  intros Hinf Hki Hi Hdraws.
  exists (samples (chain_at func steps g (Z.to_nat steps))),
         (gen (chain_at func steps g (Z.to_nat steps))).
  split; [apply metropolis_returns; lia|].
  rewrite chain_at_settled by lia.
  rewrite chain_at_S, body_records_position, lookup_written by exact Hi.
  rewrite <- chain_at_S. f_equal.
  replace (S i) with (k + (S i - k)) by lia.
  apply stuck_at_infinity; [exact Hinf|].
  intros j Hj. apply Hdraws. lia.
Qed.

End Degenerate.

Lemma samples_stay_in_support_witness :
  exists out g' x,
    metropolis uniform_01 3
      ([0.5; 0.25; -2; 0.5; 1; 0.75]%float : script) = (inr out, g') /\
    out !! 2 = Some x /\
    (0 <? pdf uniform_01 x)%float = true.
Proof.
  apply (samples_stay_in_support uniform_01 3
           ([0.5; 0.25; -2; 0.5; 1; 0.75]%float : script) 2).
  - vm_compute. reflexivity.
  - lia.
  - intros j Hj. destruct j as [|[|[|j]]]; [| | |lia]; vm_compute; reflexivity.
  - intros j Hj. destruct j as [|[|[|j]]]; [| | |lia]; vm_compute; reflexivity.
Defined.

Lemma nan_start_never_moves_witness :
  (metropolis cauchy (Z.of_nat 3)
     ([0.5; 0.25; -1.5; 0.5; 1; 0.75]%float : script)).1
    = inr (replicate 3 (mean cauchy)).
Proof.
  apply (nan_start_never_moves cauchy 3
           ([0.5; 0.25; -1.5; 0.5; 1; 0.75]%float : script)).
  vm_compute. reflexivity.
Defined.

Lemma nan_candidate_rejected_witness :
  exists out g',
    metropolis cauchy 1 ([0.5; 0.25]%float : script) = (inr out, g') /\
    out !! 0 = Some (old_x (chain_at cauchy 1 ([0.5; 0.25]%float : script) 0)) /\
    old_x (chain_at cauchy 1 ([0.5; 0.25]%float : script) 1)
      = old_x (chain_at cauchy 1 ([0.5; 0.25]%float : script) 0) /\
    old_prob (chain_at cauchy 1 ([0.5; 0.25]%float : script) 1)
      = old_prob (chain_at cauchy 1 ([0.5; 0.25]%float : script) 0).
Proof.
  apply (nan_candidate_rejected cauchy 1 ([0.5; 0.25]%float : script) 0).
  - lia.
  - vm_compute. reflexivity.
Defined.

Lemma absorbed_at_infinite_density_witness :
  exists out g',
    metropolis beta_half_1 3
      ([-0.6666666666666666; 0.5; 1; 0.25; -1; 0.75]%float : script)
      = (inr out, g') /\
    out !! 2 =
      Some (old_x (chain_at beta_half_1 3
                     ([-0.6666666666666666; 0.5; 1; 0.25; -1; 0.75]%float
                      : script) 1)).
Proof.
  apply (absorbed_at_infinite_density beta_half_1 3
           ([-0.6666666666666666; 0.5; 1; 0.25; -1; 0.75]%float : script) 1 2).
  - vm_compute. reflexivity.
  - lia.
  - lia.
  - intros j Hj. destruct j as [|[|[|j]]]; [lia| | |lia]; vm_compute; reflexivity.
Defined.
